(** * arxiv-dl: the orchestrator [main] of [arxiv_dl/arxiv_dl.py]

    A shallow embedding of [main] (and of [PaperData] from
    [arxiv_dl/models.py]) with the properties of its target filter, its
    venue dispatch and its stage-by-stage failure policy.

    Conventions of the embedding.
    - A Python [str] is a [string]; a character of it is the code point
      U+0000..U+00FF carried by the [ascii].
    - The helpers imported from [.helpers], [.scrapers] and [pathlib] are
      not part of the embedded file: they are the fields of [Env], functions
      of an abstract world [W] that return a value or raise.
    - An [exn] is an instance of Python's [Exception], the class every
      [except Exception] clause of [main] catches. *)

From Stdlib Require Import String Ascii List Bool ZArith.
Import ListNotations.
Local Open Scope string_scope.

(** ** Strings *)

Module PyStr.

(** [s.startswith(p)] *)
Definition startswith (p s : string) : bool := String.prefix p s.

(** [s.startswith((p1, ..., pn))]: some element of the tuple is a prefix. *)
Definition startswith_any (ps : list string) (s : string) : bool :=
  existsb (fun p => startswith p s) ps.

(** [sub in s] *)
Fixpoint contains (sub s : string) : bool :=
  match s with
  | EmptyString => startswith sub s
  | String _ s' => startswith sub s || contains sub s'
  end.

(** [s.endswith(suf)] *)
Fixpoint endswith (suf s : string) : bool :=
  match s with
  | EmptyString => String.eqb s suf
  | String _ s' => String.eqb s suf || endswith suf s'
  end.

(** [c.isdigit()] for a single character: Numeric_Type is Digit or
    Decimal.  Up to U+00FF these are '0'..'9' and the superscripts
    U+00B2, U+00B3 and U+00B9. *)
Definition isdigit (c : ascii) : bool :=
  let n := N_of_ascii c in
  ((48 <=? n) && (n <=? 57) || (n =? 178) || (n =? 179) || (n =? 185))%N.

(** [c.isdecimal()] for a single character: the decimal digits, which up
    to U+00FF are '0'..'9' only. *)
Definition isdecimal (c : ascii) : bool :=
  let n := N_of_ascii c in ((48 <=? n) && (n <=? 57))%N.

End PyStr.
Import PyStr.

(** ** Exceptions and values *)

Inductive exn : Type :=
| AssertionError
| IndexError
| UnboundLocalError (name : string)
| OtherException (cls msg : string).

(** What [main] may be handed as [target]. *)
Inductive pyval : Type :=
| PyNone
| PyBool (b : bool)
| PyInt (z : Z)
| PyStr (s : string).

(** Truth value of an object, as [not target] tests it. *)
Definition truthy (v : pyval) : bool :=
  match v with
  | PyNone => false
  | PyBool b => b
  | PyInt z => negb (z =? 0)%Z
  | PyStr s => negb (String.eqb s EmptyString)
  end.

(** [isinstance(v, str)] *)
Definition isinstance_str (v : pyval) : bool :=
  match v with PyStr _ => true | _ => false end.

Definition as_str (v : pyval) : string :=
  match v with PyStr s => s | _ => EmptyString end.

(** Truth value of an optional string field ([None] and the empty string are false). *)
Definition truthy_field (o : option string) : bool :=
  match o with
  | None => false
  | Some s => negb (String.eqb s EmptyString)
  end.

(** ** [models.PaperData] *)

Record PaperData : Type := mkPaperData {
  paper_id : option string;
  abs_url : option string;
  pdf_url : option string;
  src_website : option string;
  download_name : option string;
  title : option string;
  year : option Z;
  paper_venue : option string;
  authors : list string;
  abstract : option string;
  comments : option string;
  official_code_urls : list string;
  pwc_page_url : option string;
  bibtex : option string
}.

(** [PaperData()] *)
Definition PaperData_default : PaperData :=
  mkPaperData None None None None None None None None [] None None [] None None.

(** ** The target filter and the venue chain of [main] (lines 51-82)

    These lines read [target] only.  [classify] is their decision; the
    logging and the calls each decision leads to are in [main] below. *)

Inductive Venue : Type := ArXiv | CVF | NeurIPS | OpenReview | ECVA.

Inductive Classification : Type :=
| NotSpecified                 (* line 51: falsy or not a str *)
| UnrecognizedFormat           (* line 55: neither URL prefix nor digit *)
| Source (v : Venue)           (* lines 65-76 *)
| RawPDF                       (* line 77: the [...] placeholder *)
| UnknownTarget                (* line 80 *)
| Fault (e : exn).             (* [target[0]] out of range *)

(** [target[0].isdigit()]; [None] when the index is out of range.  Line 57
    evaluates it when no prefix matches and line 65 evaluates it in any
    case, so a string without a first character faults at its first use
    either way. *)
Definition first_isdigit (s : string) : option bool :=
  match s with
  | EmptyString => None
  | String c _ => Some (isdigit c)
  end.

Definition url_prefixes : list string := ["http://"; "https://"; "www."].

Definition classify (target : pyval) : Classification :=
  if negb (truthy target) || negb (isinstance_str target) then NotSpecified
  else
    let s := as_str target in
    match first_isdigit s with
    | None => Fault IndexError
    | Some d =>
      if negb (startswith_any url_prefixes s) && negb d then UnrecognizedFormat
      else if d || contains "arxiv.org" s then Source ArXiv
      else if contains "openaccess.thecvf.com" s then Source CVF
      else if contains "papers.nips.cc/paper" s then Source NeurIPS
      else if contains "openreview.net" s then Source OpenReview
      else if contains "ecva.net" s then Source ECVA
      else if endswith ".pdf" s then RawPDF
      else UnknownTarget
    end.


(** ** Effects: the world, the local [paper_data], the trace *)

Definition Path : Type := string.

Inductive Res (A : Type) : Type :=
| Val (a : A)
| Exc (e : exn).
Arguments Val {A} a.
Arguments Exc {A} e.

(** The calls [main] makes outside its own file. *)
Inductive Call : Type :=
| c_get_download_dest
| c_Path_resolve (d : string)
| c_is_dir (p : Path)
| c_process_arxiv_target (t : string)
| c_process_cvf_target (t : string)
| c_process_nips_target (t : string)
| c_process_openreview_target (t : string)
| c_process_ecva_target (t : string)
| c_scrape_metadata (pd : PaperData)
| c_download_pdf (pd : PaperData) (dir : Path) (parallel_connections : Z)
| c_add_to_paper_list (pd : PaperData) (dir : Path)
| c_create_paper_note (pd : PaperData) (dir : Path).

Inductive Level : Type := DEBUG | WARNING | ERROR.

Inductive LogMsg : Type :=
| Text (s : string)
| Traceback (e : exn)              (* [logger.exception(e)] *)
| JsonDump (pd : PaperData).       (* [json.dumps(paper_data.dict(), indent=4)] *)

(** What a run leaves behind, in order: each outside call with the
    exception it raised ([None] when it returned), each call of a logger
    method, and the change of the logger's level. *)
Inductive Event : Type :=
| Invoked (c : Call) (raised : option exn)
| Logged (lvl : Level) (msg : LogMsg)
| SetLevel (lvl : Level).

Definition raised_of {A} (r : Res A) : option exn :=
  match r with Val _ => None | Exc e => Some e end.

Section Orchestrator.

Variable W : Type.

(** The helpers.  The ones that receive the [PaperData] object may mutate
    it in place: they give back the object as they leave it. *)
Record Env : Type := mkEnv {
  get_download_dest : W -> Res Path * W;
  Path_resolve : string -> W -> Res Path * W;
  Path_is_dir : Path -> W -> Res bool * W;
  process_arxiv_target : string -> W -> Res PaperData * W;
  process_cvf_target : string -> W -> Res PaperData * W;
  process_nips_target : string -> W -> Res PaperData * W;
  process_openreview_target : string -> W -> Res PaperData * W;
  process_ecva_target : string -> W -> Res PaperData * W;
  scrape_metadata : PaperData -> W -> Res unit * PaperData * W;
  download_pdf : PaperData -> Path -> Z -> W -> Res unit * PaperData * W;
  add_to_paper_list : PaperData -> Path -> W -> Res unit * PaperData * W;
  create_paper_note : PaperData -> Path -> W -> Res unit * PaperData * W
}.

Variable env : Env.

(** [paper_data] is the local variable of [main]: [None] while unbound. *)
Record St : Type := mkSt {
  world : W;
  paper_data : option PaperData;
  trace : list Event
}.

Definition init (w : W) : St := mkSt w None [].

Definition M (A : Type) : Type := St -> Res A * St.

Definition ret {A} (a : A) : M A := fun st => (Val a, st).

Definition bind {A B} (m : M A) (k : A -> M B) : M B :=
  fun st =>
    match m st with
    | (Val a, st') => k a st'
    | (Exc e, st') => (Exc e, st')
    end.

Definition raise {A} (e : exn) : M A := fun st => (Exc e, st).

(** [try: m  except Exception as e: ...]: the handler's argument on the
    left, the value of the body on the right. *)
Definition try_except {A} (m : M A) : M (exn + A) :=
  fun st =>
    match m st with
    | (Val a, st') => (Val (inr a), st')
    | (Exc e, st') => (Val (inl e), st')
    end.

Definition emit (ev : Event) : M unit :=
  fun st => (Val tt, mkSt (world st) (paper_data st) (trace st ++ [ev])).

(** A call of a helper that does not receive the paper. *)
Definition invoke {A} (c : Call) (f : W -> Res A * W) : M A :=
  fun st =>
    let (r, w') := f (world st) in
    (r, mkSt w' (paper_data st) (trace st ++ [Invoked c (raised_of r)])).

(** A call of a helper on the object [paper_data] names. *)
Definition invoke_on (c : Call) (f : W -> Res unit * PaperData * W) : M unit :=
  fun st =>
    let '(r, pd', w') := f (world st) in
    (r, mkSt w' (Some pd') (trace st ++ [Invoked c (raised_of r)])).

(** Reading the local [paper_data]. *)
Definition load_paper_data : M PaperData :=
  fun st =>
    match paper_data st with
    | Some pd => (Val pd, st)
    | None => (Exc (UnboundLocalError "paper_data"), st)
    end.

(** [paper_data = ...] *)
Definition store_paper_data (pd : PaperData) : M unit :=
  fun st => (Val tt, mkSt (world st) (Some pd) (trace st)).

Definition logger_error (s : string) : M unit := emit (Logged ERROR (Text s)).
Definition logger_warning (s : string) : M unit := emit (Logged WARNING (Text s)).
Definition logger_exception (e : exn) : M unit := emit (Logged ERROR (Traceback e)).
Definition logger_debug (m : LogMsg) : M unit := emit (Logged DEBUG m).
Definition logger_setLevel (l : Level) : M unit := emit (SetLevel l).

Notation "x <- m ;; k" := (bind m (fun x => k))
  (at level 61, m at next level, right associativity).
Notation "m ;;; k" := (bind m (fun _ => k))
  (at level 61, right associativity).

(** ** [main] *)

(** How a block of [main] ends: by a [return b], or by falling through to
    the next line with the value it bound. *)
Inductive Flow (A : Type) : Type :=
| Return (b : bool)
| Next (a : A).
Arguments Return {A} b.
Arguments Next {A} a.

(** Lines 40-44, the body of the first [try]. *)
Definition get_dir (download_dir : option string) : M Path :=
  match download_dir with
  | None => invoke c_get_download_dest (get_download_dest env)
  | Some d =>
    p <- invoke (c_Path_resolve d) (Path_resolve env d) ;;
    b <- invoke (c_is_dir p) (Path_is_dir env p) ;;
    if b then ret p else raise AssertionError
  end.

(** The [process_*_target] call of lines 67-76. *)
Definition resolver (v : Venue) (t : string) : M PaperData :=
  match v with
  | ArXiv => invoke (c_process_arxiv_target t) (process_arxiv_target env t)
  | CVF => invoke (c_process_cvf_target t) (process_cvf_target env t)
  | NeurIPS => invoke (c_process_nips_target t) (process_nips_target env t)
  | OpenReview =>
    invoke (c_process_openreview_target t) (process_openreview_target env t)
  | ECVA => invoke (c_process_ecva_target t) (process_ecva_target env t)
  end.

(** Line 85: [scrape_metadata(paper_data)]. *)
Definition scrape : M unit :=
  pd <- load_paper_data ;;
  invoke_on (c_scrape_metadata pd) (scrape_metadata env pd).

(** Lines 38-85: destination directory, target filter, venue chain and
    scrape.  Falls through with the resolved [download_dir]. *)
Definition resolve_and_scrape (target : pyval) (download_dir : option string)
  : M (Flow Path) :=
  r <- try_except (get_dir download_dir) ;;
  match r with
  | inl e =>
    logger_exception e ;;;
    logger_error "[Abort] Environment Variable Error" ;;;
    ret (Return false)
  | inr download_dir =>
    match classify target with
    | Fault e => raise e
    | NotSpecified =>
      logger_error "[Abort] Target is not specified correctly" ;;;
      ret (Return false)
    | UnrecognizedFormat =>
      logger_error
        ("[Abort] Target should be a URL or an ArXiv ID. Unknown target: '"
           ++ as_str target ++ "'") ;;;
      ret (Return false)
    | Source v =>
      pd <- resolver v (as_str target) ;;
      store_paper_data pd ;;;
      scrape ;;;
      ret (Next download_dir)
    | RawPDF =>
      scrape ;;;
      ret (Next download_dir)
    | UnknownTarget =>
      logger_error ("[Abort] Unknown target: " ++ as_str target) ;;;
      ret (Return false)
    end
  end.

(** Lines 87-123: logging level, download, paper list, note. *)
Definition deliver (verbose : bool) (download_dir : Path) (n_threads : Z)
           (pdf_only : bool) : M bool :=
  logger_setLevel DEBUG ;;;
  (if verbose
   then pd <- load_paper_data ;; logger_debug (JsonDump pd)
   else ret tt) ;;;
  r <- try_except
         (pd <- load_paper_data ;;
          if truthy_field (pdf_url pd)
          then invoke_on (c_download_pdf pd download_dir n_threads)
                         (download_pdf env pd download_dir n_threads)
          else logger_warning "[Warn] No PDF URL found") ;;
  match r with
  | inl err =>
    logger_exception err ;;;
    logger_error "[Abort] Error while downloading paper" ;;;
    ret false
  | inr _ =>
    r <- try_except
           (pd <- load_paper_data ;;
            invoke_on (c_add_to_paper_list pd download_dir)
                      (add_to_paper_list env pd download_dir)) ;;
    match r with
    | inl err =>
      logger_exception err ;;;
      logger_warning "[Warn] Error while updating paper list" ;;;
      ret false
    | inr _ =>
      r <- try_except
             (if negb pdf_only
              then pd <- load_paper_data ;;
                   invoke_on (c_create_paper_note pd download_dir)
                             (create_paper_note env pd download_dir)
              else ret tt) ;;
      match r with
      | inl err =>
        logger_exception err ;;;
        logger_warning "[Warn] Error while creating note" ;;;
        ret false
      | inr _ => ret true
      end
    end
  end.

Definition main (target : pyval) (verbose : bool)
           (download_dir : option string) (n_threads : Z) (pdf_only : bool)
  : M bool :=
  f <- resolve_and_scrape target download_dir ;;
  match f with
  | Return b => ret b
  | Next download_dir => deliver verbose download_dir n_threads pdf_only
  end.

End Orchestrator.

Arguments Return {A} b.
Arguments Next {A} a.
Arguments init {W} w.
Arguments world {W} s.
Arguments paper_data {W} s.
Arguments trace {W} s.
Arguments mkSt {W} world paper_data trace.
Arguments main {W} env target verbose download_dir n_threads pdf_only st.
Arguments deliver {W} env verbose download_dir n_threads pdf_only st.
Arguments resolve_and_scrape {W} env target download_dir st.
Arguments get_dir {W} env download_dir st.
Arguments resolver {W} env v t st.
Arguments scrape {W} env st.
Arguments get_download_dest {W} e.
Arguments Path_resolve {W} e.
Arguments Path_is_dir {W} e.
Arguments process_arxiv_target {W} e.
Arguments process_cvf_target {W} e.
Arguments process_nips_target {W} e.
Arguments process_openreview_target {W} e.
Arguments process_ecva_target {W} e.
Arguments scrape_metadata {W} e.
Arguments download_pdf {W} e.
Arguments add_to_paper_list {W} e.
Arguments create_paper_note {W} e.

(** ** Reading a trace *)

Definition is_resolver_call (c : Call) : bool :=
  match c with
  | c_process_arxiv_target _ | c_process_cvf_target _ | c_process_nips_target _
  | c_process_openreview_target _ | c_process_ecva_target _ => true
  | _ => false
  end.

(** The three calls of the destination-directory stage. *)
Definition is_dir_stage_call (c : Call) : bool :=
  match c with
  | c_get_download_dest | c_Path_resolve _ | c_is_dir _ => true
  | _ => false
  end.

(** The outside calls of a trace, in order. *)
Fixpoint calls (tr : list Event) : list Call :=
  match tr with
  | [] => []
  | Invoked c _ :: tr' => c :: calls tr'
  | _ :: tr' => calls tr'
  end.

(** The calls of lines 93-121: download, paper list, note. *)
Definition is_delivery_call (c : Call) : bool :=
  match c with
  | c_download_pdf _ _ _ | c_add_to_paper_list _ _ | c_create_paper_note _ _ =>
    true
  | _ => false
  end.

(** The calls that sit inside a [try] of [main]. *)
Definition in_try (c : Call) : bool :=
  is_dir_stage_call c || is_delivery_call c.

(** The call [resolver v t] makes. *)
Definition resolver_call (v : Venue) (t : string) : Call :=
  match v with
  | ArXiv => c_process_arxiv_target t
  | CVF => c_process_cvf_target t
  | NeurIPS => c_process_nips_target t
  | OpenReview => c_process_openreview_target t
  | ECVA => c_process_ecva_target t
  end.

Definition is_log (ev : Event) : bool :=
  match ev with Logged _ _ => true | _ => false end.

(** A trace without the calls of logger methods. *)
Definition unlogged (tr : list Event) : list Event :=
  filter (fun ev => negb (is_log ev)) tr.

(** The same state with another trace. *)
Definition retrace {W} (tr : list Event) (st : St W) : St W :=
  mkSt (world st) (paper_data st) tr.

(** The position of a call in the text of [main]. *)
Definition stage (c : Call) : nat :=
  match c with
  | c_get_download_dest | c_Path_resolve _ => 0
  | c_is_dir _ => 1
  | c_process_arxiv_target _ | c_process_cvf_target _ | c_process_nips_target _
  | c_process_openreview_target _ | c_process_ecva_target _ => 2
  | c_scrape_metadata _ => 3
  | c_download_pdf _ _ _ => 4
  | c_add_to_paper_list _ _ => 5
  | c_create_paper_note _ _ => 6
  end.

(** Strictly increasing. *)
Fixpoint increasing (l : list nat) : bool :=
  match l with
  | a :: (b :: _) as t => Nat.ltb a b && increasing t
  | _ => true
  end.

(** The substring each [elif] of lines 65-75 looks for. *)
Definition marker (v : Venue) : string :=
  match v with
  | ArXiv => "arxiv.org"
  | CVF => "openaccess.thecvf.com"
  | NeurIPS => "papers.nips.cc/paper"
  | OpenReview => "openreview.net"
  | ECVA => "ecva.net"
  end.

(** The venues tested before [v] in the chain. *)
Definition earlier (v : Venue) : list Venue :=
  match v with
  | ArXiv => []
  | CVF => [ArXiv]
  | NeurIPS => [ArXiv; CVF]
  | OpenReview => [ArXiv; CVF; NeurIPS]
  | ECVA => [ArXiv; CVF; NeurIPS; OpenReview]
  end.

(** A delivery call made with directory [dir] and, for the download, with
    [n] connections. *)
Definition forwarded (dir : Path) (n : Z) (c : Call) : Prop :=
  match c with
  | c_download_pdf _ d k => d = dir /\ k = n
  | c_add_to_paper_list _ d => d = dir
  | c_create_paper_note _ d => d = dir
  | _ => True
  end.

(** The messages [main] ends a refused run with start like this. *)
Definition is_abort_message (msg : string) : bool :=
  startswith "[Abort]" msg || startswith "[Warn]" msg.

(** ** A small world to run [main] in *)

Module Toy.

(** The directories that exist and the artefacts written so far. *)
Record World : Type := mkWorld {
  dirs : list string;
  written : list string
}.

Inductive Failure : Type :=
| no_failure | resolver_fails | scrape_fails | download_fails
| index_fails | note_fails.

Definition write (f : string) (w : World) : World :=
  mkWorld (dirs w) (written w ++ [f]).

Definition skeleton (site t : string) (pdf : option string) : PaperData :=
  mkPaperData (Some t) (Some t) pdf (Some site) None
              None None None [] None None [] None None.

Definition with_title (pd : PaperData) : PaperData :=
  mkPaperData (paper_id pd) (abs_url pd) (pdf_url pd) (src_website pd)
              (download_name pd) (Some "Faster R-CNN") (Some 2015%Z)
              (paper_venue pd) ["Ren"; "He"; "Girshick"; "Sun"] (abstract pd)
              (comments pd) (official_code_urls pd) (pwc_page_url pd)
              (bibtex pd).

Definition network_down : exn := OtherException "ConnectionError" "unreachable".
Definition disk_full : exn := OtherException "OSError" "No space left on device".

(** arXiv targets come with a PDF link, the other venues without. *)
Definition env (f : Failure) : Env World :=
  mkEnv World
    (fun w => (Val "/home/user/Downloads/ArXiv_Papers", w))
    (fun d w => (Val d, w))
    (fun p w => (Val (existsb (String.eqb p) (dirs w)), w))
    (fun t w =>
       match f with
       | resolver_fails => (Exc (OtherException "ValueError" "bad id"), w)
       | _ => (Val (skeleton "arxiv" t (Some ("https://arxiv.org/pdf/" ++ t))), w)
       end)
    (fun t w => (Val (skeleton "cvf" t None), w))
    (fun t w => (Val (skeleton "nips" t None), w))
    (fun t w => (Val (skeleton "openreview" t None), w))
    (fun t w => (Val (skeleton "ecva" t None), w))
    (fun pd w =>
       match f with
       | scrape_fails => (Exc network_down, pd, w)
       | _ => (Val tt, with_title pd, w)
       end)
    (fun pd dir n w =>
       match f with
       | download_fails => (Exc network_down, pd, w)
       | _ => (Val tt, pd, write (dir ++ "/paper.pdf") w)
       end)
    (fun pd dir w =>
       match f with
       | index_fails => (Exc disk_full, pd, w)
       | _ => (Val tt, pd, write (dir ++ "/000_Paper_List.json") w)
       end)
    (fun pd dir w =>
       match f with
       | note_fails => (Exc disk_full, pd, w)
       | _ => (Val tt, pd, write (dir ++ "/paper.md") w)
       end).

Definition w0 : World := mkWorld ["/papers"] [].

End Toy.


(** ** Proof support *)

Local Open Scope list_scope.

Ltac unfold_run :=
  unfold main, deliver, resolve_and_scrape, get_dir, resolver, scrape,
    logger_error, logger_warning, logger_exception, logger_debug,
    logger_setLevel, bind, ret, raise, try_except, emit, invoke, invoke_on,
    load_paper_data, store_paper_data, init in *.

Ltac simpl_run :=
  cbn [fst snd world paper_data trace raised_of app] in *.

(** Follow every branch of a run. *)
Ltac split_run :=
  repeat (simpl_run;
          match goal with
          | |- context [match ?x with _ => _ end] =>
            lazymatch x with
            | context [match _ with _ => _ end] => fail
            | _ => destruct x eqn:?
            end
          end).

Lemma calls_app tr1 tr2 : calls (tr1 ++ tr2) = calls tr1 ++ calls tr2.
Proof.
  induction tr1 as [|[c r|l m|l] tr1 IH]; simpl; rewrite ?IH; reflexivity.
Qed.

Lemma in_calls c tr : In c (calls tr) <-> exists r, In (Invoked c r) tr.
Proof.
  induction tr as [|[c' r'|l m|l] tr IH]; simpl.
  - split; [tauto | intros [r []]].
  - rewrite IH. split.
    + intros [->|[r H]]; [exists r'; auto | exists r; auto].
    + intros [r [H|H]]; [injection H as -> _; auto | right; exists r; auto].
  - rewrite IH. split; intros [r H]; exists r; [auto | destruct H; [discriminate | auto]].
  - rewrite IH. split; intros [r H]; exists r; [auto | destruct H; [discriminate | auto]].
Qed.

Ltac in_trace H :=
  simpl in H;
  repeat match type of H with
         | _ \/ _ => destruct H as [H | H]
         | False => destruct H
         | _ = _ =>
           first [ discriminate H
                 | injection H; clear H; intros; subst
                 | subst ]
         end.

Section Stages.

Context {W : Type} (env : Env W).

Lemma get_dir_paper_data download_dir st :
  paper_data (snd (get_dir env download_dir st)) = paper_data st.
Proof. unfold_run. split_run; reflexivity. Qed.

Lemma get_dir_calls download_dir w c :
  In c (calls (trace (snd (get_dir env download_dir (init w))))) ->
  is_dir_stage_call c = true.
Proof.
  unfold_run. split_run; intros H; in_trace H; reflexivity.
Qed.

Section Prelude.

Variables (target : pyval) (download_dir : option string) (w : W).

Let pre := resolve_and_scrape env target download_dir (init w).
Let dir := get_dir env download_dir (init w).

(** Lines 38-85 call nothing of the delivery stages. *)
Lemma pre_calls c :
  In c (calls (trace (snd pre))) -> is_delivery_call c = false.
Proof.
  subst pre. unfold_run.
  split_run; intros H; in_trace H; reflexivity.
Qed.

(** The resolver calls of lines 38-85: the one the venue chain picks,
    once the destination directory is there. *)
Lemma pre_resolver_calls :
  filter is_resolver_call (calls (trace (snd pre))) =
  match fst dir, classify target with
  | Val _, Source v => [resolver_call v (as_str target)]
  | _, _ => []
  end.
Proof.
  subst pre dir. unfold_run. split_run; reflexivity.
Qed.

Lemma pre_failure c e :
  In (Invoked c (Some e)) (trace (snd pre)) ->
  fst pre = if in_try c then Val (Return false) else Exc e.
Proof.
  subst pre. unfold_run.
  split_run; intros H; in_trace H; try reflexivity; try discriminate.
Qed.

(** Falling through to line 87 leaves [paper_data] bound. *)
Lemma pre_next d st :
  pre = (Val (Next d), st) ->
  fst dir = Val d /\ exists pd, paper_data st = Some pd.
Proof.
  subst pre dir. unfold_run.
  split_run; intros H; try discriminate H;
    injection H as <- <-; (split; [reflexivity | eexists; reflexivity]).
Qed.

End Prelude.

Section Delivery.

Variables (verbose : bool) (dir : Path) (n_threads : Z) (pdf_only : bool).

(** Lines 87-123 never read the trace: a run from [st] is the run from
    [st] with an empty trace, put after the trace of [st]. *)
Lemma deliver_frame st :
  deliver env verbose dir n_threads pdf_only st =
  let R := deliver env verbose dir n_threads pdf_only (retrace [] st) in
  (fst R, retrace (trace st ++ trace (snd R)) (snd R)).
Proof.
  destruct st as [w0 pd0 tr0]. unfold retrace. unfold_run.
  split_run; unfold retrace; simpl; rewrite <- ?app_assoc; reflexivity.
Qed.

Variable st : St W.

Let R := deliver env verbose dir n_threads pdf_only (retrace [] st).

Lemma deliver_calls c :
  In c (calls (trace (snd R))) -> is_delivery_call c = true.
Proof.
  subst R. destruct st as [w0 pd0 tr0]. unfold retrace. unfold_run.
  split_run; intros H; in_trace H; reflexivity.
Qed.

Lemma deliver_failure c e :
  In (Invoked c (Some e)) (trace (snd R)) -> fst R = Val false.
Proof.
  subst R. destruct st as [w0 pd0 tr0]. unfold retrace. unfold_run.
  split_run; intros H; in_trace H; try reflexivity; try discriminate.
Qed.

(** A failed [add_to_paper_list] is the last call of the run. *)
Lemma deliver_index_failure pd d e :
  In (Invoked (c_add_to_paper_list pd d) (Some e)) (trace (snd R)) ->
  (exists tr,
      trace (snd R) =
      tr ++ [Invoked (c_add_to_paper_list pd d) (Some e);
             Logged ERROR (Traceback e);
             Logged WARNING (Text "[Warn] Error while updating paper list")])
  /\ forall pd' d', ~ In (c_create_paper_note pd' d') (calls (trace (snd R))).
Proof.
  subst R. destruct st as [w0 pd0 tr0]. unfold retrace. unfold_run.
  split_run; intros H; in_trace H;
    (split;
     [ match goal with
       | |- exists tr, ?l = _ =>
         first [ exists (firstn (length l - 3) l); reflexivity ]
       end
     | intros pd' d' H'; in_trace H' ]).
Qed.

(** [create_paper_note] is called right after an [add_to_paper_list]
    that returned, on the same directory. *)
Lemma deliver_note_after_index pd d r :
  In (Invoked (c_create_paper_note pd d) r) (trace (snd R)) ->
  exists tr1 tr2 pd0,
    trace (snd R) =
    tr1 ++ Invoked (c_add_to_paper_list pd0 d) None
        :: Invoked (c_create_paper_note pd d) r :: tr2.
Proof.
  subst R. destruct st as [w0 pd0 tr0]. unfold retrace. unfold_run.
  split_run; intros H; in_trace H;
    match goal with
    | |- exists tr1 tr2 pd0, ?l = _ =>
      first [ exists (firstn 1 l); do 2 eexists; reflexivity
            | exists (firstn 2 l); do 2 eexists; reflexivity
            | exists (firstn 3 l); do 2 eexists; reflexivity
            | exists (firstn 4 l); do 2 eexists; reflexivity ]
    end.
Qed.

(** Without a PDF link the download stage is a warning, and the run
    goes on to [add_to_paper_list]. *)
Lemma deliver_no_pdf pd :
  paper_data st = Some pd ->
  truthy_field (pdf_url pd) = false ->
  exists r rest,
    trace (snd R) =
    [SetLevel DEBUG]
      ++ (if verbose then [Logged DEBUG (JsonDump pd)] else [])
      ++ [Logged WARNING (Text "[Warn] No PDF URL found");
          Invoked (c_add_to_paper_list pd dir) r]
      ++ rest
    /\ forall pd' d' k, ~ In (c_download_pdf pd' d' k) (calls rest).
Proof.
  subst R. destruct st as [w0 pd0 tr0]. unfold retrace. simpl.
  intros -> Hurl. unfold_run. destruct verbose; simpl_run; rewrite Hurl;
  split_run;
    (eexists; eexists; split;
     [ reflexivity | intros pd' d' k H'; in_trace H' ]).
Qed.

End Delivery.

(** With [paper_data] bound, [verbose] adds calls of the logger and
    nothing else. *)
Lemma deliver_verbose dir n_threads pdf_only st pd :
  paper_data st = Some pd ->
  let R1 := deliver env true dir n_threads pdf_only (retrace [] st) in
  let R2 := deliver env false dir n_threads pdf_only (retrace [] st) in
  fst R1 = fst R2 /\ world (snd R1) = world (snd R2)
  /\ paper_data (snd R1) = paper_data (snd R2)
  /\ unlogged (trace (snd R1)) = unlogged (trace (snd R2)).
Proof.
  destruct st as [w0 pd0 tr0]. unfold retrace. simpl. intros ->.
  unfold_run. split_run; simpl; repeat split; congruence.
Qed.

End Stages.

Lemma filter_none {A} (f : A -> bool) l :
  (forall x, In x l -> f x = false) -> filter f l = [].
Proof.
  induction l as [|x l IH]; simpl; intros H; [reflexivity|].
  rewrite (H x) by auto. apply IH. auto.
Qed.

Lemma calls_unlogged tr : calls (unlogged tr) = calls tr.
Proof.
  induction tr as [|[c r|l m|l] tr IH]; simpl; rewrite ?IH; reflexivity.
Qed.

Lemma delivery_not_dir_stage c :
  is_delivery_call c = true -> is_dir_stage_call c = false.
Proof. destruct c; simpl; congruence. Qed.

Lemma delivery_not_resolver c :
  is_delivery_call c = true -> is_resolver_call c = false.
Proof. destruct c; simpl; congruence. Qed.

(** ** Whole runs of [main] *)

Section Runs.

Context {W : Type} (env : Env W).
Variables (target : pyval) (verbose : bool) (download_dir : option string)
          (n_threads : Z) (pdf_only : bool) (w : W).

Let run := main env target verbose download_dir n_threads pdf_only (init w).
Let pre := resolve_and_scrape env target download_dir (init w).

(** A run is lines 38-85 followed, when they fall through, by lines
    87-123. *)
Lemma main_unfold :
  run =
  match pre with
  | (Val (Next d), st) =>
    let R := deliver env verbose d n_threads pdf_only (retrace [] st) in
    (fst R, retrace (trace st ++ trace (snd R)) (snd R))
  | (Val (Return b), st) => (Val b, st)
  | (Exc e, st) => (Exc e, st)
  end.
Proof.
  subst run pre. unfold main at 1, bind.
  destruct (resolve_and_scrape env target download_dir (init w))
    as [[[b|d]|e] st]; try reflexivity.
  apply deliver_frame.
Qed.

(** A failed outside call decides the result of the run: [False] when
    the call sits in a [try], the exception itself otherwise. *)
Lemma failure_decides c e :
  In (Invoked c (Some e)) (trace (snd run)) ->
  fst run = if in_try c then Val false else Exc e.
Proof.
  rewrite main_unfold.
  pose proof (pre_failure env target download_dir w c e) as Hpre.
  fold pre in Hpre.
  destruct pre as [[[b|d]|e'] st]; simpl in *.
  - intros H. specialize (Hpre H).
    destruct (in_try c); [injection Hpre as -> | discriminate]; reflexivity.
  - rewrite in_app_iff. intros [H|H].
    + specialize (Hpre H). destruct (in_try c); discriminate.
    + assert (Hc : is_delivery_call c = true).
      { eapply deliver_calls, in_calls. eauto. }
      unfold in_try. rewrite Hc, orb_true_r.
      eapply deliver_failure; eauto.
  - intros H. specialize (Hpre H).
    destruct (in_try c); [discriminate | injection Hpre as ->]; reflexivity.
Qed.

(** No delivery stage is called unless lines 38-85 fell through. *)
Lemma run_calls c :
  In c (calls (trace (snd run))) ->
  is_delivery_call c = true ->
  exists d st, pre = (Val (Next d), st).
Proof.
  rewrite main_unfold.
  pose proof (pre_calls env target download_dir w c) as Hpre.
  fold pre in Hpre.
  destruct pre as [[[b|d]|e'] st]; simpl in *; eauto;
    intros H Hc; rewrite (Hpre H) in Hc; discriminate.
Qed.

Lemma run_resolver_calls :
  filter is_resolver_call (calls (trace (snd run))) =
  match fst (get_dir env download_dir (init w)), classify target with
  | Val _, Source v => [resolver_call v (as_str target)]
  | _, _ => []
  end.
Proof.
  rewrite <- pre_resolver_calls. fold pre. rewrite main_unfold.
  destruct pre as [[[b|d]|e'] st]; simpl; try reflexivity.
  rewrite calls_app, filter_app, (filter_none is_resolver_call (calls (trace (snd _)))).
  - apply app_nil_r.
  - intros c H. apply delivery_not_resolver. eapply deliver_calls; eauto.
Qed.

(** A target the filter or the venue chain turns down: the run is the
    destination-directory stage, one error message, and [False]. *)
Lemma turned_down :
  classify target = NotSpecified \/ classify target = UnrecognizedFormat
  \/ classify target = UnknownTarget ->
  fst run = Val false
  /\ paper_data (snd run) = None
  /\ (forall c, In c (calls (trace (snd run))) -> is_dir_stage_call c = true)
  /\ (download_dir <> None -> ~ In c_get_download_dest (calls (trace (snd run)))).
Proof.
  subst run pre. unfold_run.
  intros [H|[H|H]]; rewrite H; split_run;
    (repeat split; try reflexivity;
     [ intros c Hc; in_trace Hc; reflexivity
     | intros Hd Hc; first [ congruence | in_trace Hc ] ]).
Qed.

End Runs.

(** With two runs that differ in [verbose] only, the one logs more and
    nothing else differs. *)
Lemma verbose_irrelevant {W} (env : Env W) target download_dir n_threads
      pdf_only w :
  let run1 := main env target true download_dir n_threads pdf_only (init w) in
  let run2 := main env target false download_dir n_threads pdf_only (init w) in
  fst run1 = fst run2 /\ world (snd run1) = world (snd run2)
  /\ paper_data (snd run1) = paper_data (snd run2)
  /\ unlogged (trace (snd run1)) = unlogged (trace (snd run2)).
Proof.
  intros run1 run2. subst run1 run2. rewrite !main_unfold.
  pose proof (pre_next env target download_dir w) as Hnext.
  destruct (resolve_and_scrape env target download_dir (init w))
    as [[[b|d]|e'] st]; simpl; try tauto.
  destruct (Hnext d st eq_refl) as [_ [pd Hpd]].
  unfold unlogged. rewrite !filter_app.
  pose proof (deliver_verbose env d n_threads pdf_only st pd Hpd) as H.
  simpl in H. unfold unlogged in H.
  destruct H as (H1 & H2 & H3 & H4).
  repeat split; congruence.
Qed.

(** ** The target filter *)

(** The filter and the chain decide every target: [target[0]] is only
    read of a non-empty string. *)
Lemma classify_never_faults target e : classify target <> Fault e.
Proof.
  unfold classify.
  destruct target as [| b | z | [|c s]]; simpl; try discriminate.
  - destruct b; discriminate.
  - destruct (negb (z =? 0)%Z); discriminate.
  - repeat match goal with
           | |- context [if ?b then _ else _] => destruct b
           end; discriminate.
Qed.


Lemma classify_unrecognized s :
  s <> EmptyString ->
  startswith_any url_prefixes s = false ->
  first_isdigit s <> Some true ->
  classify (PyStr s) = UnrecognizedFormat.
Proof.
  intros Hne Hpre Hdig. destruct s as [|c s']; [congruence|].
  unfold classify. cbn [truthy isinstance_str as_str first_isdigit negb orb String.eqb].
  rewrite Hpre. cbn [first_isdigit] in Hdig.
  destruct (isdigit c); [congruence | reflexivity].
Qed.

Lemma contains_nonempty sub s :
  sub <> EmptyString -> contains sub s = true -> s <> EmptyString.
Proof.
  intros Hsub H ->. destruct sub; [congruence | discriminate H].
Qed.

Lemma classify_arxiv s :
  contains "arxiv.org" s = true ->
  startswith_any url_prefixes s = true \/ first_isdigit s = Some true ->
  classify (PyStr s) = Source ArXiv.
Proof.
  intros Hin Hgate.
  assert (Hne : s <> EmptyString) by (apply (contains_nonempty "arxiv.org"); [discriminate | assumption]).
  destruct s as [|c s']; [congruence|].
  unfold classify. cbn [truthy isinstance_str as_str first_isdigit negb orb String.eqb].
  rewrite Hin, orb_true_r.
  destruct Hgate as [-> | Hd]; [reflexivity|].
  cbn [first_isdigit] in Hd. injection Hd as ->. simpl. rewrite andb_false_r. reflexivity.
Qed.

(** ** Properties of [main] *)

Ltac after_dir Hdir :=
  unfold main, resolve_and_scrape, bind, try_except; rewrite Hdir.

(** C1 (the code departs from the claim).  A target that reaches the
    placeholder branch of line 77 leaves [paper_data] unbound: as soon as
    the destination directory is resolved, line 85 raises
    [UnboundLocalError] out of [main].  Nothing is returned, nothing is
    logged, and the state is the one the directory stage left. *)
Theorem rawpdf_target_raises {W} (env : Env W) target verbose download_dir
        n_threads pdf_only w d st :
  classify target = RawPDF ->
  get_dir env download_dir (init w) = (Val d, st) ->
  main env target verbose download_dir n_threads pdf_only (init w) =
  (Exc (UnboundLocalError "paper_data"), st).
Proof.
  intros Hcls Hdir.
  pose proof (get_dir_paper_data env download_dir (init w)) as Hpd.
  rewrite Hdir in Hpd. simpl in Hpd.
  after_dir Hdir. rewrite Hcls.
  unfold scrape, bind, load_paper_data. rewrite Hpd. reflexivity.
Qed.

Lemma rawpdf_target_raises_witness :
  main (Toy.env Toy.no_failure) (PyStr "https://example.com/foo.pdf")
       false None 5 false (init Toy.w0) =
  (Exc (UnboundLocalError "paper_data"),
   mkSt Toy.w0 None [Invoked c_get_download_dest None]).
Proof.
  apply (rawpdf_target_raises (Toy.env Toy.no_failure)
           (PyStr "https://example.com/foo.pdf") false None 5 false Toy.w0
           "/home/user/Downloads/ArXiv_Papers");
    reflexivity.
Defined.

(** The scenario target ["foo.pdf"] does not reach that branch: it has no
    URL prefix and no leading digit, so line 55 turns it down. *)
Example foo_pdf_is_unrecognized :
  classify (PyStr "foo.pdf") = UnrecognizedFormat.
Proof. reflexivity. Qed.

(** C2, as stated, fails: a target that contains [arxiv.org] but has no URL
    prefix and no leading digit is turned down at line 55, and no resolver
    is called. *)
Lemma arxiv_without_prefix_counterexample :
  contains "arxiv.org" "arxiv.org/abs/1506.01497" = true
  /\ classify (PyStr "arxiv.org/abs/1506.01497") = UnrecognizedFormat
  /\ main (Toy.env Toy.no_failure) (PyStr "arxiv.org/abs/1506.01497")
          false None 5 false (init Toy.w0) =
     (Val false,
      mkSt Toy.w0 None
           [Invoked c_get_download_dest None;
            Logged ERROR
                   (Text "[Abort] Target should be a URL or an ArXiv ID. Unknown target: 'arxiv.org/abs/1506.01497'")]).
Proof. repeat split. Qed.

(** C2 (amended).  A string that contains [arxiv.org] and passes the filter
    of line 55 (a URL prefix or a leading digit) is classified as arXiv;
    in every run on it the only resolver called is
    [process_arxiv_target], once and on the target itself, provided the
    destination directory was resolved; otherwise no resolver is called. *)
Theorem arxiv_target_resolves_to_arxiv s :
  contains "arxiv.org" s = true ->
  startswith_any url_prefixes s = true \/ first_isdigit s = Some true ->
  classify (PyStr s) = Source ArXiv
  /\ forall W (env : Env W) verbose download_dir n_threads pdf_only w,
      filter is_resolver_call
             (calls (trace (snd (main env (PyStr s) verbose download_dir
                                      n_threads pdf_only (init w))))) =
      match fst (get_dir env download_dir (init w)) with
      | Val _ => [c_process_arxiv_target s]
      | Exc _ => []
      end.
Proof.
  intros Hin Hgate.
  pose proof (classify_arxiv s Hin Hgate) as Hcls.
  split; [exact Hcls|]. intros.
  rewrite run_resolver_calls, Hcls. reflexivity.
Qed.

Lemma arxiv_target_resolves_to_arxiv_witness :
  classify (PyStr "https://arxiv.org/abs/1506.01497") = Source ArXiv
  /\ filter is_resolver_call
            (calls (trace (snd (main (Toy.env Toy.no_failure)
                                     (PyStr "https://arxiv.org/abs/1506.01497")
                                     false None 5 false (init Toy.w0))))) =
     [c_process_arxiv_target "https://arxiv.org/abs/1506.01497"].
Proof.
  assert (H1 : contains "arxiv.org" "https://arxiv.org/abs/1506.01497" = true)
    by reflexivity.
  assert (H2 : startswith_any url_prefixes "https://arxiv.org/abs/1506.01497" = true
               \/ first_isdigit "https://arxiv.org/abs/1506.01497" = Some true)
    by (left; reflexivity).
  split.
  - exact (proj1 (arxiv_target_resolves_to_arxiv _ H1 H2)).
  - exact (proj2 (arxiv_target_resolves_to_arxiv _ H1 H2)
                 Toy.World (Toy.env Toy.no_failure) false None 5%Z false Toy.w0).
Defined.

(** C3, as stated, fails: U+00B2 (superscript two) is no decimal digit, yet
    [isdigit] accepts it, so a target that starts with it passes line 55
    and goes to the arXiv resolver. *)
Lemma superscript_digit_counterexample :
  let s := String "178"%char "abc" in
  s <> EmptyString
  /\ startswith_any url_prefixes s = false
  /\ isdecimal "178"%char = false
  /\ classify (PyStr s) = Source ArXiv
  /\ calls (trace (snd (main (Toy.env Toy.no_failure) (PyStr s)
                             false None 5 true (init Toy.w0)))) =
     [c_get_download_dest;
      c_process_arxiv_target s;
      c_scrape_metadata
        (Toy.skeleton "arxiv" s (Some ("https://arxiv.org/pdf/" ++ s)%string));
      c_download_pdf
        (Toy.with_title
           (Toy.skeleton "arxiv" s (Some ("https://arxiv.org/pdf/" ++ s)%string)))
        "/home/user/Downloads/ArXiv_Papers" 5;
      c_add_to_paper_list
        (Toy.with_title
           (Toy.skeleton "arxiv" s (Some ("https://arxiv.org/pdf/" ++ s)%string)))
        "/home/user/Downloads/ArXiv_Papers"].
Proof. repeat split. discriminate. Qed.

(** C3 (amended).  A non-empty string without URL prefix whose first
    character is not a digit in the sense of [str.isdigit] is classified
    as an unrecognized format.  Every run on it returns [False] and calls
    nothing beyond the destination-directory stage; when that stage
    succeeded the run ends with the error message of line 59. *)
Theorem unrecognized_format_aborts s :
  s <> EmptyString ->
  startswith_any url_prefixes s = false ->
  first_isdigit s <> Some true ->
  classify (PyStr s) = UnrecognizedFormat
  /\ forall W (env : Env W) verbose download_dir n_threads pdf_only w,
      let run := main env (PyStr s) verbose download_dir n_threads pdf_only
                      (init w) in
      fst run = Val false
      /\ (forall c, In c (calls (trace (snd run))) -> is_dir_stage_call c = true)
      /\ (forall d st,
             get_dir env download_dir (init w) = (Val d, st) ->
             run =
             (Val false,
              mkSt (world st) (paper_data st)
                   (trace st ++
                    [Logged ERROR
                       (Text ("[Abort] Target should be a URL or an ArXiv ID. Unknown target: '"
                                ++ s ++ "'")%string)]))).
Proof.
  intros Hne Hpre Hdig.
  pose proof (classify_unrecognized s Hne Hpre Hdig) as Hcls.
  split; [exact Hcls|]. intros W env verbose download_dir n_threads pdf_only w run.
  destruct (turned_down env (PyStr s) verbose download_dir n_threads pdf_only w)
    as (Hres & _ & Hcalls & _); [auto|].
  repeat split; [exact Hres | exact Hcalls |].
  intros d st Hdir. subst run. after_dir Hdir. rewrite Hcls. reflexivity.
Qed.

Lemma unrecognized_format_aborts_witness :
  classify (PyStr "foo.pdf") = UnrecognizedFormat
  /\ fst (main (Toy.env Toy.no_failure) (PyStr "foo.pdf") false None 5 false
               (init Toy.w0)) = Val false.
Proof.
  assert (H1 : "foo.pdf" <> EmptyString) by discriminate.
  assert (H2 : startswith_any url_prefixes "foo.pdf" = false) by reflexivity.
  assert (H3 : first_isdigit "foo.pdf" <> Some true) by discriminate.
  split.
  - exact (proj1 (unrecognized_format_aborts _ H1 H2 H3)).
  - exact (proj1 (proj2 (unrecognized_format_aborts _ H1 H2 H3)
                        Toy.World (Toy.env Toy.no_failure) false None 5%Z false
                        Toy.w0)).
Defined.

(** C4.  When lines 38-85 fall through and leave [paper_data] without a PDF
    link, the download stage is the warning of line 100 and nothing else:
    [download_pdf] is not called anywhere in the run, and the next call is
    [add_to_paper_list] on the same paper and directory. *)
Theorem missing_pdf_url_is_a_warning {W} (env : Env W) target verbose
        download_dir n_threads pdf_only w d st pd :
  resolve_and_scrape env target download_dir (init w) = (Val (Next d), st) ->
  paper_data st = Some pd ->
  pdf_url pd = None ->
  let run := main env target verbose download_dir n_threads pdf_only (init w) in
  (exists r rest,
      trace (snd run) =
      trace st
        ++ [SetLevel DEBUG]
        ++ (if verbose then [Logged DEBUG (JsonDump pd)] else [])
        ++ [Logged WARNING (Text "[Warn] No PDF URL found");
            Invoked (c_add_to_paper_list pd d) r]
        ++ rest)
  /\ forall pd' d' k, ~ In (c_download_pdf pd' d' k) (calls (trace (snd run))).
Proof.
  intros Hpre Hpd Hurl run.
  assert (Hfalsy : truthy_field (pdf_url pd) = false) by (rewrite Hurl; reflexivity).
  destruct (deliver_no_pdf env verbose d n_threads pdf_only st pd Hpd Hfalsy)
    as (r & rest & Htr & Hrest).
  subst run. rewrite main_unfold, Hpre. cbn [snd trace retrace]. rewrite Htr.
  split.
  - exists r, rest. reflexivity.
  - intros pd' d' k. rewrite !calls_app, !in_app_iff.
    intros [H | [H | [H | [H | H]]]].
    + pose proof (pre_calls env target download_dir w (c_download_pdf pd' d' k)) as Hc.
      rewrite Hpre in Hc. discriminate (Hc H).
    + in_trace H.
    + destruct verbose; in_trace H.
    + in_trace H.
    + exact (Hrest _ _ _ H).
Qed.

Lemma missing_pdf_url_is_a_warning_witness :
  exists r rest,
    trace (snd (main (Toy.env Toy.no_failure)
                     (PyStr "https://openaccess.thecvf.com/content/x")
                     false None 5 false (init Toy.w0))) =
    [Invoked c_get_download_dest None;
     Invoked (c_process_cvf_target "https://openaccess.thecvf.com/content/x") None;
     Invoked (c_scrape_metadata
                (Toy.skeleton "cvf" "https://openaccess.thecvf.com/content/x" None))
             None]
      ++ [SetLevel DEBUG]
      ++ []
      ++ [Logged WARNING (Text "[Warn] No PDF URL found");
          Invoked (c_add_to_paper_list
                     (Toy.with_title
                        (Toy.skeleton "cvf" "https://openaccess.thecvf.com/content/x" None))
                     "/home/user/Downloads/ArXiv_Papers") r]
      ++ rest.
Proof.
  refine (proj1 (missing_pdf_url_is_a_warning
                   (Toy.env Toy.no_failure)
                   (PyStr "https://openaccess.thecvf.com/content/x")
                   false None 5 false Toy.w0 _ _ _ eq_refl eq_refl eq_refl)).
Defined.

(** C5.  In a run where [add_to_paper_list] raises, that call is the last
    one: the run logs the exception and the warning of line 111, returns
    [False], and [create_paper_note] is called nowhere. *)
Theorem index_failure_skips_note {W} (env : Env W) target verbose download_dir
        n_threads pdf_only w pd d e :
  let run := main env target verbose download_dir n_threads pdf_only (init w) in
  In (Invoked (c_add_to_paper_list pd d) (Some e)) (trace (snd run)) ->
  fst run = Val false
  /\ (exists tr,
         trace (snd run) =
         tr ++ [Invoked (c_add_to_paper_list pd d) (Some e);
                Logged ERROR (Traceback e);
                Logged WARNING (Text "[Warn] Error while updating paper list")])
  /\ forall pd' d', ~ In (c_create_paper_note pd' d') (calls (trace (snd run))).
Proof.
  intros run H.
  split; [exact (failure_decides env _ _ _ _ _ _ _ _ H)|].
  assert (Hin : In (c_add_to_paper_list pd d) (calls (trace (snd run))))
    by (apply in_calls; eauto).
  destruct (run_calls env _ _ _ _ _ _ _ Hin eq_refl) as (d0 & st & Hpre).
  subst run. rewrite main_unfold, Hpre in *. cbn [snd trace retrace] in *.
  apply in_app_iff in H. destruct H as [H|H].
  - assert (Hc : In (c_add_to_paper_list pd d) (calls (trace st)))
      by (apply in_calls; eauto).
    pose proof (pre_calls env target download_dir w (c_add_to_paper_list pd d)) as Hp.
    rewrite Hpre in Hp. discriminate (Hp Hc).
  - destruct (deliver_index_failure env verbose d0 n_threads pdf_only st pd d e H)
      as [[tr Htr] Hnote].
    split.
    + exists (trace st ++ tr). rewrite Htr, app_assoc. reflexivity.
    + intros pd' d'. rewrite calls_app, in_app_iff. intros [Hc|Hc].
      * pose proof (pre_calls env target download_dir w (c_create_paper_note pd' d')) as Hp.
        rewrite Hpre in Hp. discriminate (Hp Hc).
      * exact (Hnote _ _ Hc).
Qed.

Lemma index_failure_skips_note_witness :
  fst (main (Toy.env Toy.index_fails) (PyStr "1506.01497")
            false (Some "/papers") 5 false (init Toy.w0)) = Val false.
Proof.
  refine (proj1 (index_failure_skips_note
                   (Toy.env Toy.index_fails) (PyStr "1506.01497")
                   false (Some "/papers") 5 false Toy.w0
                   (Toy.with_title
                      (Toy.skeleton "arxiv" "1506.01497"
                                    (Some "https://arxiv.org/pdf/1506.01497")))
                   "/papers" Toy.disk_full _)).
  vm_compute. tauto.
Defined.

(** The order of the last two stages: [create_paper_note] is called only
    right after an [add_to_paper_list] that returned. *)
Lemma note_follows_index {W} (env : Env W) target verbose download_dir
      n_threads pdf_only w pd d r :
  let run := main env target verbose download_dir n_threads pdf_only (init w) in
  In (Invoked (c_create_paper_note pd d) r) (trace (snd run)) ->
  exists tr1 tr2 pd0,
    trace (snd run) =
    tr1 ++ Invoked (c_add_to_paper_list pd0 d) None
        :: Invoked (c_create_paper_note pd d) r :: tr2.
Proof.
  intros run H.
  assert (Hin : In (c_create_paper_note pd d) (calls (trace (snd run))))
    by (apply in_calls; eauto).
  destruct (run_calls env _ _ _ _ _ _ _ Hin eq_refl) as (d0 & st & Hpre).
  subst run. rewrite main_unfold, Hpre in *. cbn [snd trace retrace] in *.
  apply in_app_iff in H. destruct H as [H|H].
  - assert (Hc : In (c_create_paper_note pd d) (calls (trace st)))
      by (apply in_calls; eauto).
    pose proof (pre_calls env target download_dir w (c_create_paper_note pd d)) as Hp.
    rewrite Hpre in Hp. discriminate (Hp Hc).
  - destruct (deliver_note_after_index env verbose d0 n_threads pdf_only st pd d r H)
      as (tr1 & tr2 & pd0 & Htr).
    exists (trace st ++ tr1), tr2, pd0. rewrite Htr, app_assoc. reflexivity.
Qed.

(** C6 (the code departs from the claim).  With a scraper that raises, the
    run on ["1506.01497"] does not return a boolean: the exception leaves
    [main], and nothing about it is logged. *)
Theorem scrape_failure_escapes_main :
  main (Toy.env Toy.scrape_fails) (PyStr "1506.01497") false None 5 false
       (init Toy.w0) =
  (Exc Toy.network_down,
   mkSt Toy.w0
        (Some (Toy.skeleton "arxiv" "1506.01497"
                            (Some "https://arxiv.org/pdf/1506.01497")))
        [Invoked c_get_download_dest None;
         Invoked (c_process_arxiv_target "1506.01497") None;
         Invoked (c_scrape_metadata
                    (Toy.skeleton "arxiv" "1506.01497"
                                  (Some "https://arxiv.org/pdf/1506.01497")))
                 (Some Toy.network_down)]).
Proof. reflexivity. Qed.

(** C7, as stated, fails: the scrape stage is not the only one whose
    failure leaves [main].  A resolver that raises does so outside any
    [try], and its exception reaches the caller too. *)
Lemma resolver_failure_counterexample :
  main (Toy.env Toy.resolver_fails) (PyStr "1506.01497") false None 5 false
       (init Toy.w0) =
  (Exc (OtherException "ValueError" "bad id"),
   mkSt Toy.w0 None
        [Invoked c_get_download_dest None;
         Invoked (c_process_arxiv_target "1506.01497")
                 (Some (OtherException "ValueError" "bad id"))]).
Proof. reflexivity. Qed.

(** C7 (amended).  In every run, an exception of [scrape_metadata] leaves
    [main] as it is, whereas a failure of the destination-directory stage
    and an exception of [download_pdf], [add_to_paper_list] or
    [create_paper_note] make the run return [False]. *)
Theorem scrape_failure_propagates {W} (env : Env W) target verbose download_dir
        n_threads pdf_only w :
  let run := main env target verbose download_dir n_threads pdf_only (init w) in
  (forall pd e,
      In (Invoked (c_scrape_metadata pd) (Some e)) (trace (snd run)) ->
      fst run = Exc e)
  /\ (forall e,
         fst (get_dir env download_dir (init w)) = Exc e -> fst run = Val false)
  /\ (forall c e,
         is_delivery_call c = true ->
         In (Invoked c (Some e)) (trace (snd run)) ->
         fst run = Val false).
Proof.
  intros run. repeat split.
  - intros pd e H. exact (failure_decides env _ _ _ _ _ _ _ _ H).
  - intros e Hdir. subst run.
    destruct (get_dir env download_dir (init w)) as [r st] eqn:Hd.
    simpl in Hdir. subst r. after_dir Hd. reflexivity.
  - intros c e Hc H.
    pose proof (failure_decides env _ _ _ _ _ _ _ _ H) as Hf.
    unfold in_try in Hf. rewrite Hc, orb_true_r in Hf. exact Hf.
Qed.

Lemma scrape_failure_propagates_witness :
  fst (main (Toy.env Toy.scrape_fails) (PyStr "1506.01497") true None 5 false
            (init Toy.w0)) = Exc Toy.network_down
  /\ fst (main (Toy.env Toy.download_fails) (PyStr "1506.01497") true None 5
               false (init Toy.w0)) = Val false.
Proof.
  split.
  - refine (proj1 (scrape_failure_propagates
                     (Toy.env Toy.scrape_fails) (PyStr "1506.01497") true None 5
                     false Toy.w0)
                  (Toy.skeleton "arxiv" "1506.01497"
                                (Some "https://arxiv.org/pdf/1506.01497"))
                  Toy.network_down _).
    vm_compute. tauto.
  - refine (proj2 (proj2 (scrape_failure_propagates
                            (Toy.env Toy.download_fails) (PyStr "1506.01497")
                            true None 5 false Toy.w0))
                  (c_download_pdf
                     (Toy.with_title
                        (Toy.skeleton "arxiv" "1506.01497"
                                      (Some "https://arxiv.org/pdf/1506.01497")))
                     "/home/user/Downloads/ArXiv_Papers" 5)
                  Toy.network_down eq_refl _).
    vm_compute. tauto.
Defined.




(** C9.  With an explicit destination that resolves to a path which is not
    a directory, the run is: resolve the path, test it, log the failed
    assertion and the abort message, return [False].  Nothing is created
    and no helper is called. *)
Theorem missing_directory_aborts {W} (env : Env W) target verbose d n_threads
        pdf_only w p w1 w2 :
  Path_resolve env d w = (Val p, w1) ->
  Path_is_dir env p w1 = (Val false, w2) ->
  main env target verbose (Some d) n_threads pdf_only (init w) =
  (Val false,
   mkSt w2 None
        [Invoked (c_Path_resolve d) None;
         Invoked (c_is_dir p) None;
         Logged ERROR (Traceback AssertionError);
         Logged ERROR (Text "[Abort] Environment Variable Error")]).
Proof.
  intros Hres Hdir. unfold_run. simpl_run.
  rewrite Hres. simpl_run. rewrite Hdir. reflexivity.
Qed.

Lemma missing_directory_aborts_witness :
  main (Toy.env Toy.no_failure) (PyStr "1506.01497") false (Some "/nowhere") 5
       false (init Toy.w0) =
  (Val false,
   mkSt Toy.w0 None
        [Invoked (c_Path_resolve "/nowhere") None;
         Invoked (c_is_dir "/nowhere") None;
         Logged ERROR (Traceback AssertionError);
         Logged ERROR (Text "[Abort] Environment Variable Error")]).
Proof.
  apply (missing_directory_aborts (Toy.env Toy.no_failure)
           (PyStr "1506.01497") false "/nowhere" 5 false Toy.w0 "/nowhere"
           Toy.w0 Toy.w0); reflexivity.
Defined.

(** C10.  Two runs that differ in [verbose] only give the same result,
    leave the same world and the same [paper_data], and make the same
    outside calls with the same outcomes, in the same order: their traces
    differ in calls of logger methods only. *)
Theorem verbose_only_logs {W} (env : Env W) target download_dir n_threads
        pdf_only w :
  let run1 := main env target true download_dir n_threads pdf_only (init w) in
  let run2 := main env target false download_dir n_threads pdf_only (init w) in
  fst run1 = fst run2
  /\ world (snd run1) = world (snd run2)
  /\ paper_data (snd run1) = paper_data (snd run2)
  /\ unlogged (trace (snd run1)) = unlogged (trace (snd run2))
  /\ calls (trace (snd run1)) = calls (trace (snd run2)).
Proof.
  intros run1 run2.
  destruct (verbose_irrelevant env target download_dir n_threads pdf_only w)
    as (H1 & H2 & H3 & H4).
  repeat split; try assumption.
  rewrite <- (calls_unlogged (trace (snd run1))),
          <- (calls_unlogged (trace (snd run2))).
  f_equal. exact H4.
Qed.

(** ** More about the two blocks of [main] *)

Lemma increasing_app l1 l2 k :
  increasing l1 = true -> increasing l2 = true ->
  (forall x, In x l1 -> x < k) -> (forall y, In y l2 -> k <= y) ->
  increasing (l1 ++ l2) = true.
Proof.
  induction l1 as [|a [|b l1] IH]; intros H1 H2 Hlt Hge.
  - exact H2.
  - destruct l2 as [|y l2]; [reflexivity|].
    change (Nat.ltb a y && increasing (y :: l2) = true).
    rewrite H2, andb_true_r. apply Nat.ltb_lt.
    specialize (Hlt a (or_introl eq_refl)).
    specialize (Hge y (or_introl eq_refl)).
    eapply Nat.lt_le_trans; eassumption.
  - change (increasing (a :: b :: l1) = true) with
        (Nat.ltb a b && increasing (b :: l1) = true) in H1.
    apply andb_true_iff in H1. destruct H1 as [Hab H1].
    change (Nat.ltb a b && increasing ((b :: l1) ++ l2) = true).
    rewrite Hab. simpl andb. apply IH; auto.
    intros x Hx. apply Hlt. right. exact Hx.
Qed.

Lemma stage_delivery c : is_delivery_call c = true <-> 4 <= stage c.
Proof.
  destruct c; simpl; split; intros H; try reflexivity; try discriminate;
    repeat constructor;
    repeat match goal with
           | H : S _ <= _ |- _ => apply le_S_n in H
           | H : S _ <= 0 |- _ => inversion H
           end.
Qed.

Ltac exhibit_last n :=
  match goal with
  | |- exists tr, ?l = _ => exists (firstn (length l - n) l)
  | |- exists tr, ?l = _ /\ _ => exists (firstn (length l - n) l)
  | |- exists tr x, ?l = @?r tr x /\ _ => exists (firstn (length l - n) l)
  | |- exists tr x y, ?l = @?r tr x y /\ _ => exists (firstn (length l - n) l)
  | |- exists tr x y, ?l = @?r tr x y => exists (firstn (length l - n) l)
  end.

Section MoreStages.

Context {W : Type} (env : Env W).

Section MorePrelude.

Variables (target : pyval) (download_dir : option string) (w : W).

Let pre := resolve_and_scrape env target download_dir (init w).
Let dir := get_dir env download_dir (init w).

Lemma pre_increasing :
  increasing (map stage (calls (trace (snd pre)))) = true.
Proof. subst pre. unfold_run. split_run; reflexivity. Qed.

(** A [return] of lines 38-85 is a [return False] after an error message. *)
Lemma pre_return b :
  fst pre = Val (Return b) ->
  b = false
  /\ exists tr msg,
      trace (snd pre) = tr ++ [Logged ERROR (Text msg)]
      /\ is_abort_message msg = true.
Proof.
  subst pre. unfold_run.
  split_run; intros H; try discriminate H; injection H as <-;
    (split; [reflexivity|]; exhibit_last 1; eexists; split; reflexivity).
Qed.

Lemma pre_next_source d st :
  pre = (Val (Next d), st) ->
  (exists v, classify target = Source v)
  /\ (forall c e, ~ In (Invoked c (Some e)) (trace st))
  /\ (forall m, ~ In (Logged ERROR m) (trace st))
  /\ (exists pd, In (Invoked (c_scrape_metadata pd) None) (trace st)).
Proof.
  subst pre. unfold_run.
  split_run; intros H; try discriminate H; injection H as <- <-;
    (split; [eexists; reflexivity|]; split; [|split];
     [ intros c0 e0 H0; in_trace H0
     | intros m0 H0; in_trace H0
     | eexists; simpl; eauto 10 ]).
Qed.

Lemma pre_reaches d v :
  fst dir = Val d ->
  classify target = Source v ->
  (forall c e, ~ In (Invoked c (Some e)) (trace (snd pre))) ->
  exists st, pre = (Val (Next d), st).
Proof.
  subst pre dir. unfold_run.
  split_run; simpl; intros Hd Hc Hnf; try discriminate;
    try (injection Hd as <-; eexists; reflexivity);
    exfalso; eapply Hnf; simpl; eauto 10.
Qed.

(** An exception leaves lines 38-85 from the placeholder branch, from a
    resolver or from the scraper. *)
Lemma pre_raises e :
  fst pre = Exc e ->
  (classify target = RawPDF /\ e = UnboundLocalError "paper_data")
  \/ exists c, In (Invoked c (Some e)) (trace (snd pre)) /\ in_try c = false.
Proof.
  pose proof (classify_never_faults target) as Hnf.
  subst pre. unfold_run.
  split_run; intros H; try discriminate H; injection H as <-;
    try (left; split; reflexivity);
    try (right; eexists; split; [simpl; eauto 10 | reflexivity]).
  all: exfalso; eapply Hnf; reflexivity.
Qed.

Lemma pre_caught c e :
  In (Invoked c (Some e)) (trace (snd pre)) ->
  in_try c = true ->
  exists tr,
    trace (snd pre) =
    tr ++ [Invoked c (Some e); Logged ERROR (Traceback e);
           Logged ERROR (Text "[Abort] Environment Variable Error")].
Proof.
  subst pre. unfold_run.
  split_run; intros H Hc; in_trace H; try discriminate Hc;
    exhibit_last 3; reflexivity.
Qed.

End MorePrelude.

Section MoreDelivery.

Variables (verbose : bool) (dir : Path) (n_threads : Z) (pdf_only : bool).
Variable st : St W.

Let R := deliver env verbose dir n_threads pdf_only (retrace [] st).

Ltac run_deliver :=
  subst R; destruct st as [w0 pd0 tr0]; unfold retrace; unfold_run.

Lemma deliver_increasing :
  increasing (map stage (calls (trace (snd R)))) = true.
Proof. run_deliver. split_run; reflexivity. Qed.

(** With [paper_data] bound, lines 87-123 return, and they return [True]
    exactly when no call failed. *)
Lemma deliver_returns pd :
  paper_data st = Some pd ->
  exists b,
    fst R = Val b
    /\ (b = true <-> forall c e, ~ In (Invoked c (Some e)) (trace (snd R))).
Proof.
  run_deliver. simpl. intros ->.
  split_run; eexists; (split; [reflexivity|]); split;
    try discriminate;
    try (intros _ c0 e0 H0; in_trace H0);
    try reflexivity;
    intros Hnf; exfalso; eapply Hnf; simpl; eauto 10.
Qed.

Lemma deliver_false_logged :
  fst R = Val false ->
  exists tr lvl msg,
    trace (snd R) = tr ++ [Logged lvl (Text msg)]
    /\ lvl <> DEBUG /\ is_abort_message msg = true.
Proof.
  run_deliver.
  split_run; intros H; try discriminate H;
    exhibit_last 1; do 2 eexists;
    (split; [reflexivity | split; [discriminate | reflexivity]]).
Qed.

Lemma deliver_caught c e :
  In (Invoked c (Some e)) (trace (snd R)) ->
  exists tr lvl msg,
    trace (snd R) =
    tr ++ [Invoked c (Some e); Logged ERROR (Traceback e); Logged lvl (Text msg)].
Proof.
  run_deliver.
  split_run; intros H; in_trace H; exhibit_last 3; do 2 eexists; reflexivity.
Qed.

Lemma deliver_forwarded c :
  In c (calls (trace (snd R))) -> forwarded dir n_threads c.
Proof.
  run_deliver.
  split_run; intros H; in_trace H; simpl; auto.
Qed.

End MoreDelivery.

End MoreStages.

Section MoreRuns.

Context {W : Type} (env : Env W).
Variables (target : pyval) (verbose : bool) (download_dir : option string)
          (n_threads : Z) (pdf_only : bool) (w : W).

Let run := main env target verbose download_dir n_threads pdf_only (init w).
Let pre := resolve_and_scrape env target download_dir (init w).

Lemma run_next d st :
  pre = (Val (Next d), st) ->
  let R := deliver env verbose d n_threads pdf_only (retrace [] st) in
  run = (fst R, retrace (trace st ++ trace (snd R)) (snd R)).
Proof.
  intros Hpre. subst run. rewrite main_unfold. fold pre. rewrite Hpre. reflexivity.
Qed.

(** The trace of a run starts with the trace of lines 38-85. *)
Lemma run_trace : exists tail, trace (snd run) = trace (snd pre) ++ tail.
Proof.
  subst run. rewrite main_unfold. fold pre.
  destruct pre as [[[b|d]|e] st]; simpl;
    [ exists [] | eexists; reflexivity | exists [] ];
    symmetry; apply app_nil_r.
Qed.

(** A delivery call of a run is a call of lines 87-123. *)
Lemma run_delivery_event c r :
  In (Invoked c r) (trace (snd run)) ->
  is_delivery_call c = true ->
  exists d st,
    pre = (Val (Next d), st)
    /\ In (Invoked c r)
          (trace (snd (deliver env verbose d n_threads pdf_only (retrace [] st)))).
Proof.
  intros H Hc.
  assert (Hin : In c (calls (trace (snd run)))) by (apply in_calls; eauto).
  destruct (run_calls env _ _ _ _ _ _ _ Hin Hc) as (d & st & Hpre).
  fold pre in Hpre. exists d, st. split; [exact Hpre|].
  rewrite (run_next d st Hpre) in H. cbn [snd trace retrace] in H.
  apply in_app_iff in H. destruct H as [H|H]; [|exact H].
  assert (Hc' : In c (calls (trace st))) by (apply in_calls; eauto).
  pose proof (pre_calls env target download_dir w c) as Hp.
  fold pre in Hp. rewrite Hpre in Hp. rewrite (Hp Hc') in Hc. discriminate.
Qed.

End MoreRuns.

Lemma outside_try c :
  in_try c = false ->
  is_resolver_call c = true \/ exists pd, c = c_scrape_metadata pd.
Proof. destruct c; simpl; intros H; try discriminate H; eauto. Qed.

(** ** Further properties of [main] *)

(** X1.  The outside calls of a run follow the text of [main]: destination
    directory, resolver, scraper, download, paper list, note.  No call is
    made twice and none is made after a later one. *)
Theorem stages_run_in_order {W} (env : Env W) target verbose download_dir
        n_threads pdf_only w :
  increasing
    (map stage
         (calls (trace (snd (main env target verbose download_dir n_threads
                                  pdf_only (init w)))))) = true.
Proof.
  rewrite main_unfold.
  pose proof (pre_increasing env target download_dir w) as Hp.
  pose proof (pre_calls env target download_dir w) as Hc.
  destruct (resolve_and_scrape env target download_dir (init w))
    as [[[b|d]|e] st]; simpl in *; try exact Hp.
  rewrite calls_app, map_app.
  apply increasing_app with (k := 4).
  - exact Hp.
  - apply deliver_increasing.
  - intros x Hx. apply in_map_iff in Hx. destruct Hx as (c & <- & Hin).
    specialize (Hc c Hin).
    destruct (Nat.le_gt_cases 4 (stage c)) as [Hle|Hlt]; [|exact Hlt].
    apply stage_delivery in Hle. congruence.
  - intros y Hy. apply in_map_iff in Hy. destruct Hy as (c & <- & Hin).
    apply stage_delivery. eapply deliver_calls; eauto.
Qed.

(** X2.  A run returns [True] exactly when the destination directory was
    resolved, the target was classified as one of the five venues, and no
    outside call raised. *)
Theorem true_iff_nothing_failed {W} (env : Env W) target verbose download_dir
        n_threads pdf_only w :
  let run := main env target verbose download_dir n_threads pdf_only (init w) in
  fst run = Val true <->
  (exists d, fst (get_dir env download_dir (init w)) = Val d)
  /\ (exists v, classify target = Source v)
  /\ (forall c e, ~ In (Invoked c (Some e)) (trace (snd run))).
Proof.
  intros run. subst run. split.
  - destruct (resolve_and_scrape env target download_dir (init w))
      as [[[b|d]|e] st] eqn:Hpre; rewrite main_unfold, Hpre; simpl.
    + intros H. injection H as ->.
      destruct (pre_return env target download_dir w true) as [Hb _];
        [rewrite Hpre; reflexivity | discriminate Hb].
    + intros H.
      destruct (pre_next env target download_dir w d st Hpre) as [Hdir [pd Hpd]].
      destruct (pre_next_source env target download_dir w d st Hpre)
        as (Hv & Hnf & _).
      destruct (deliver_returns env verbose d n_threads pdf_only st pd Hpd)
        as (b & Hb & Hiff).
      rewrite Hb in H. injection H as ->.
      split; [eauto|]. split; [exact Hv|].
      intros c e Hin. apply in_app_iff in Hin. destruct Hin as [Hin|Hin].
      * exact (Hnf c e Hin).
      * exact (proj1 Hiff eq_refl c e Hin).
    + discriminate.
  - intros ([d Hdir] & [v Hv] & Hnf).
    destruct (run_trace env target verbose download_dir n_threads pdf_only w)
      as [tail Htail].
    destruct (pre_reaches env target download_dir w d v Hdir Hv) as [st Hpre].
    { intros c e Hin. apply (Hnf c e). rewrite Htail. apply in_or_app. auto. }
    rewrite (run_next env target verbose download_dir n_threads pdf_only w d st Hpre)
      in *.
    cbn [fst snd trace retrace] in *.
    destruct (pre_next env target download_dir w d st Hpre) as [_ [pd Hpd]].
    destruct (deliver_returns env verbose d n_threads pdf_only st pd Hpd)
      as (b & Hb & Hiff).
    rewrite Hb. f_equal. apply Hiff.
    intros c e Hin. apply (Hnf c e). apply in_or_app. auto.
Qed.

(** X3.  A run that returns [False] has said why: the last entry of its
    trace is an error or warning message that starts with [[Abort]] or
    [[Warn]]. *)
Theorem false_is_logged {W} (env : Env W) target verbose download_dir
        n_threads pdf_only w :
  let run := main env target verbose download_dir n_threads pdf_only (init w) in
  fst run = Val false ->
  exists tr lvl msg,
    trace (snd run) = tr ++ [Logged lvl (Text msg)]
    /\ lvl <> DEBUG /\ is_abort_message msg = true.
Proof.
  intros run. subst run.
  destruct (resolve_and_scrape env target download_dir (init w))
    as [[[b|d]|e] st] eqn:Hpre; rewrite main_unfold, Hpre; simpl.
  - intros _.
    destruct (pre_return env target download_dir w b) as (_ & tr & msg & Htr & Hm);
      [rewrite Hpre; reflexivity|].
    rewrite Hpre in Htr. simpl in Htr.
    exists tr, ERROR, msg. repeat split; [exact Htr | discriminate | exact Hm].
  - intros H.
    destruct (deliver_false_logged env verbose d n_threads pdf_only st H)
      as (tr & lvl & msg & Htr & Hl & Hm).
    exists (trace st ++ tr), lvl, msg. rewrite Htr, app_assoc. auto.
  - discriminate.
Qed.

(** X4.  When a call inside a [try] raises, the run ends there: the
    exception is logged with its traceback, one message follows, [False] is
    returned, and no further call is made. *)
Theorem caught_failure_ends_run {W} (env : Env W) target verbose download_dir
        n_threads pdf_only w c e :
  let run := main env target verbose download_dir n_threads pdf_only (init w) in
  In (Invoked c (Some e)) (trace (snd run)) ->
  in_try c = true ->
  fst run = Val false
  /\ exists tr lvl msg,
      trace (snd run) =
      tr ++ [Invoked c (Some e); Logged ERROR (Traceback e); Logged lvl (Text msg)].
Proof.
  intros run H Hc. subst run. split.
  { rewrite (failure_decides env _ _ _ _ _ _ _ _ H), Hc. reflexivity. }
  destruct (is_delivery_call c) eqn:Hd.
  - destruct (run_delivery_event env _ _ _ _ _ _ _ _ H Hd) as (d & st & Hpre & Hin).
    rewrite (run_next env _ _ _ _ _ _ d st Hpre). cbn [snd trace retrace].
    destruct (deliver_caught env verbose d n_threads pdf_only st c e Hin)
      as (tr & lvl & msg & Htr).
    exists (trace st ++ tr), lvl, msg. rewrite Htr, app_assoc. reflexivity.
  - pose proof (pre_failure env target download_dir w c e) as Hf.
    pose proof (pre_caught env target download_dir w c e) as Hcaught.
    rewrite Hc in Hf. rewrite main_unfold in H |- *.
    destruct (resolve_and_scrape env target download_dir (init w))
      as [[[b|d]|e'] st]; simpl in *.
    + destruct (Hcaught H Hc) as [tr Htr]. eauto.
    + apply in_app_iff in H. destruct H as [H|H].
      * discriminate (Hf H).
      * assert (Hd' : is_delivery_call c = true)
          by (eapply deliver_calls, in_calls; eauto).
        congruence.
    + discriminate (Hf H).
Qed.

(** X5.  The only exceptions that leave [main] are the unbound
    [paper_data] of the placeholder branch and whatever a resolver or the
    scraper raised: once the scraper has returned, [main] returns a
    boolean. *)
Theorem escape_routes {W} (env : Env W) target verbose download_dir n_threads
        pdf_only w e :
  let run := main env target verbose download_dir n_threads pdf_only (init w) in
  fst run = Exc e ->
  (classify target = RawPDF /\ e = UnboundLocalError "paper_data")
  \/ exists c,
      In (Invoked c (Some e)) (trace (snd run))
      /\ (is_resolver_call c = true \/ exists pd, c = c_scrape_metadata pd).
Proof.
  intros run. subst run.
  pose proof (pre_raises env target download_dir w e) as Hr.
  destruct (resolve_and_scrape env target download_dir (init w))
    as [[[b|d]|e'] st] eqn:Hpre; rewrite main_unfold, Hpre; simpl in *.
  - discriminate.
  - intros H.
    destruct (pre_next env target download_dir w d st Hpre) as [_ [pd Hpd]].
    destruct (deliver_returns env verbose d n_threads pdf_only st pd Hpd)
      as (b & Hb & _).
    rewrite Hb in H. discriminate H.
  - intros H. injection H as ->.
    destruct (Hr eq_refl) as [Hraw | (c & Hin & Hc)]; [left; exact Hraw|].
    right. exists c. split; [exact Hin | apply outside_try, Hc].
Qed.

(** X6.  The delivery stages get what the caller asked for: every call of
    [download_pdf], [add_to_paper_list] and [create_paper_note] is made
    with the directory the first stage resolved, and [download_pdf] with
    [n_threads] as given. *)
Theorem delivery_arguments_forwarded {W} (env : Env W) target verbose
        download_dir n_threads pdf_only w c :
  let run := main env target verbose download_dir n_threads pdf_only (init w) in
  In c (calls (trace (snd run))) ->
  is_delivery_call c = true ->
  exists d,
    fst (get_dir env download_dir (init w)) = Val d
    /\ forwarded d n_threads c.
Proof.
  intros run H Hc. subst run.
  apply in_calls in H. destruct H as [r H].
  destruct (run_delivery_event env _ _ _ _ _ _ _ _ H Hc) as (d & st & Hpre & Hin).
  exists d. split.
  - exact (proj1 (pre_next env target download_dir w d st Hpre)).
  - eapply deliver_forwarded, in_calls. eauto.
Qed.

Lemma delivery_arguments_forwarded_witness :
  exists d,
    fst (get_dir (Toy.env Toy.no_failure) (Some "/papers") (init Toy.w0)) = Val d
    /\ forwarded d 8
                 (c_download_pdf
                    (Toy.with_title
                       (Toy.skeleton "arxiv" "1506.01497"
                                     (Some "https://arxiv.org/pdf/1506.01497")))
                    "/papers" 8).
Proof.
  refine (delivery_arguments_forwarded
            (Toy.env Toy.no_failure) (PyStr "1506.01497") false (Some "/papers")
            8 false Toy.w0
            (c_download_pdf
               (Toy.with_title
                  (Toy.skeleton "arxiv" "1506.01497"
                                (Some "https://arxiv.org/pdf/1506.01497")))
               "/papers" 8)
            _ eq_refl).
  vm_compute. tauto.
Defined.

(** What a venue decision says about the target. *)
Lemma classify_source_inv target v :
  classify target = Source v ->
  exists s,
    target = PyStr s
    /\ (startswith_any url_prefixes s = true \/ first_isdigit s = Some true)
    /\ ((v = ArXiv /\ first_isdigit s = Some true)
        \/ (first_isdigit s = Some false
            /\ contains (marker v) s = true
            /\ Forall (fun v' => contains (marker v') s = false) (earlier v))).
Proof.
  unfold classify.
  destruct target as [| b | z | [|c s]];
    try (simpl; discriminate);
    try (simpl; rewrite orb_true_r; discriminate).
  cbn [truthy isinstance_str as_str first_isdigit negb orb String.eqb].
  intros H. exists (String c s). split; [reflexivity|].
  cbn [first_isdigit].
  destruct (isdigit c).
  - rewrite andb_false_r in H. cbn [orb] in H. injection H as <-. auto.
  - rewrite andb_true_r in H. cbn [orb] in H.
    destruct (startswith_any url_prefixes (String c s)); [|discriminate H].
    cbn [negb] in H. split; [auto|]. right. split; [reflexivity|].
    repeat match type of H with
           | context [if contains ?m ?t then _ else _] =>
             destruct (contains m t) eqn:?; cbv iota in H
           | context [if endswith ?m ?t then _ else _] =>
             destruct (endswith m t) eqn:?; cbv iota in H
           end;
      try discriminate H; injection H as <-;
        (split; [assumption | repeat constructor; assumption]).
Qed.

(** X7.  A resolver is only called with the target itself, and only when
    the target is a non-empty string that starts with a URL prefix or a
    digit.  Unless that digit made it an arXiv target, the string contains
    the venue's marker and the marker of no venue tested before it. *)
Theorem resolver_preconditions {W} (env : Env W) target verbose download_dir
        n_threads pdf_only w c :
  let run := main env target verbose download_dir n_threads pdf_only (init w) in
  In c (calls (trace (snd run))) ->
  is_resolver_call c = true ->
  exists v s,
    target = PyStr s /\ c = resolver_call v s
    /\ (startswith_any url_prefixes s = true \/ first_isdigit s = Some true)
    /\ ((v = ArXiv /\ first_isdigit s = Some true)
        \/ (first_isdigit s = Some false
            /\ contains (marker v) s = true
            /\ Forall (fun v' => contains (marker v') s = false) (earlier v))).
Proof.
  intros run H Hc. subst run.
  assert (Hf : In c (filter is_resolver_call
                            (calls (trace (snd (main env target verbose download_dir
                                                     n_threads pdf_only (init w)))))))
    by (apply filter_In; auto).
  rewrite run_resolver_calls in Hf.
  destruct (fst (get_dir env download_dir (init w))); [|destruct Hf].
  destruct (classify target) as [| |v| | |] eqn:Hcls;
    simpl in Hf; try contradiction.
  destruct Hf as [<- | []].
  destruct (classify_source_inv target v Hcls) as (s & -> & Hgate & Hmark).
  exists v, s. auto.
Qed.

Lemma resolver_preconditions_witness :
  exists v s,
    PyStr "https://openreview.net/forum?id=x" = PyStr s
    /\ c_process_openreview_target "https://openreview.net/forum?id=x" =
       resolver_call v s
    /\ (startswith_any url_prefixes s = true \/ first_isdigit s = Some true)
    /\ ((v = ArXiv /\ first_isdigit s = Some true)
        \/ (first_isdigit s = Some false
            /\ contains (marker v) s = true
            /\ Forall (fun v' => contains (marker v') s = false) (earlier v))).
Proof.
  refine (resolver_preconditions
            (Toy.env Toy.no_failure) (PyStr "https://openreview.net/forum?id=x")
            false None 5 false Toy.w0
            (c_process_openreview_target "https://openreview.net/forum?id=x")
            _ eq_refl).
  vm_compute. tauto.
Defined.

Lemma true_iff_nothing_failed_witness :
  (exists d,
      fst (get_dir (Toy.env Toy.no_failure) None (init Toy.w0)) = Val d)
  /\ (exists v, classify (PyStr "1506.01497") = Source v)
  /\ (forall c e,
         ~ In (Invoked c (Some e))
              (trace (snd (main (Toy.env Toy.no_failure) (PyStr "1506.01497")
                                false None 5 false (init Toy.w0))))).
Proof.
  exact (proj1 (true_iff_nothing_failed
                  (Toy.env Toy.no_failure) (PyStr "1506.01497") false None 5
                  false Toy.w0) eq_refl).
Defined.

Lemma false_is_logged_witness :
  exists tr lvl msg,
    trace (snd (main (Toy.env Toy.index_fails) (PyStr "1506.01497") false None 5
                     false (init Toy.w0))) = tr ++ [Logged lvl (Text msg)]
    /\ lvl <> DEBUG /\ is_abort_message msg = true.
Proof.
  exact (false_is_logged
           (Toy.env Toy.index_fails) (PyStr "1506.01497") false None 5 false
           Toy.w0 eq_refl).
Defined.

Lemma caught_failure_ends_run_witness :
  fst (main (Toy.env Toy.download_fails) (PyStr "1506.01497") false None 5 false
            (init Toy.w0)) = Val false.
Proof.
  refine (proj1 (caught_failure_ends_run
                   (Toy.env Toy.download_fails) (PyStr "1506.01497") false None 5
                   false Toy.w0
                   (c_download_pdf
                      (Toy.with_title
                         (Toy.skeleton "arxiv" "1506.01497"
                                       (Some "https://arxiv.org/pdf/1506.01497")))
                      "/home/user/Downloads/ArXiv_Papers" 5)
                   Toy.network_down _ eq_refl)).
  vm_compute. tauto.
Defined.

Lemma escape_routes_witness :
  (classify (PyStr "1506.01497") = RawPDF
   /\ Toy.network_down = UnboundLocalError "paper_data")
  \/ exists c,
      In (Invoked c (Some Toy.network_down))
         (trace (snd (main (Toy.env Toy.scrape_fails) (PyStr "1506.01497") false
                           None 5 false (init Toy.w0))))
      /\ (is_resolver_call c = true \/ exists pd, c = c_scrape_metadata pd).
Proof.
  exact (escape_routes
           (Toy.env Toy.scrape_fails) (PyStr "1506.01497") false None 5 false
           Toy.w0 Toy.network_down eq_refl).
Defined.
